(** * YahooFinanceDataWarehouse (stockdata.py): a local cache of daily price series

    The warehouse keeps one CSV file per (symbol, market) under
    [<root>/<market>/<symbol>.csv], extends it by an incremental download and
    reads it back.  This development embeds the class of stockdata.py method
    by method and settles the properties stated for it.

    Modelling choices, all taken from the source:
    - the methods run in a small state-and-exception monad [M] over a [world]:
      the directories made so far, the files, the console (every [print]) and
      the calls made to the provider (yfinance);
    - the provider is a parameter: a function from the arguments of
      [yf.download] / [Ticker.history] to either a raised [Exception] or a
      frame; so is the calendar day [datetime.today()] returns;
    - a date is the number of its day (an integer), so that
      [+ timedelta(days=1)] is [+ 1];
    - an index label is kept as the Python object it is: the text of a CSV
      cell ([str]) when the file is read without [parse_dates] (line 76), a
      [Timestamp] when it comes from the provider or from [pd.to_datetime];
    - prices and volumes are only carried around, never computed with: they
      are integers here;
    - faults of the file system itself (permissions, full disk) are outside
      the model: directories and files live in separate name spaces and the
      operations on them succeed. *)

From Stdlib Require Import Ascii.
From stdpp Require Import base decidable option list strings gmap.

Open Scope Z_scope.

(** ** Data *)

(** One row of prices, under the canonical lower-case column names. *)
Record bar := Bar { open : Z; high : Z; low : Z; close : Z; volume : Z }.

(** One row as yfinance delivers it, under its capitalised column names. *)
Record yf_bar := YfBar { Open : Z; High : Z; Low : Z; Close : Z; Volume : Z }.

(** The two spellings of a calendar day that [to_csv] produces:
    ["2024-01-04"] for the labels of a [DatetimeIndex] of midnights, and
    ["2024-01-04 00:00:00"], which is [str(Timestamp)], for a [Timestamp]
    sitting in an index of dtype [object]. *)
Inductive layout := DateOnly | DateTime.

(** The text of the first cell of a CSV row: a day in one of the two
    spellings, or any other text (which [pd.to_datetime] rejects).  Two cells
    hold the same text exactly when they are equal here. *)
Inductive cell :=
  | DateCell (l : layout) (d : Z)
  | OtherCell (s : string).

(** An index label of a DataFrame. *)
Inductive label :=
  | Text (c : cell)     (* a [str], as [read_csv(index_col=0)] leaves it *)
  | Stamp (d : Z).      (* a [Timestamp] at midnight of day [d] *)

#[global] Instance layout_eq_dec : EqDecision layout.
Proof. solve_decision. Defined.
#[global] Instance cell_eq_dec : EqDecision cell.
Proof. solve_decision. Defined.
#[global] Instance label_eq_dec : EqDecision label.
Proof. solve_decision. Defined.
#[global] Instance bar_eq_dec : EqDecision bar.
Proof. solve_decision. Defined.

(** A DataFrame of daily bars: rows in order, each with its index label. *)
Abbreviation DataFrame := (list (label * bar)).

(** The frame [yf.download] returns: a [DatetimeIndex] of days. *)
Abbreviation yf_frame := (list (Z * yf_bar)).

(** The frame [Ticker.history(interval='1m')] returns: minute timestamps. *)
Abbreviation intraday := (list (Z * yf_bar)).

(** A CSV file of the warehouse: the rows under the header line. *)
Abbreviation csv := (list (cell * bar)).

(** What a call into yfinance does: raise an [Exception] (with the text
    [str(e)] gives) or return. *)
Inductive response (A : Type) :=
  | Fails (e : string)
  | Gives (a : A).
Arguments Fails {A} e.
Arguments Gives {A} a.

(** yfinance, as far as the warehouse uses it. *)
Record provider := Provider {
  (* yf.download(symbol, start=, end=, progress=False, auto_adjust=True) *)
  download : string → option Z → Z → response yf_frame;
  (* yf.Ticker(symbol).history(period=, interval='1m', prepost=True) *)
  history : string → string → response intraday;
}.

(** A call made to the provider. *)
Inductive call :=
  | Download (symbol : string) (start : option Z) (end_ : Z)
  | History (symbol : string) (period : string).

(** A line printed to the console. *)
Inductive message :=
  | ErrorDownloading (symbol : string) (e : string)
      (* "Error downloading {symbol}: {str(e)}" *)
  | Updated (symbol : string) (n : nat)
      (* "Updated {symbol} with {len(new_data)} new records" *)
  | NoNewData (symbol : string)
      (* "No new data for {symbol}" *)
  | ErrorRealtime (e : string)
      (* "Error fetching realtime data: {str(e)}" *)
  | NoLocalData (symbol market : string).
      (* "No local data found for {symbol} in {market}" *)

(** The exceptions of the model; all are subclasses of [Exception]. *)
Inductive exn :=
  | ProviderError (e : string)      (* raised inside yfinance *)
  | IndexError                      (* [index[-1]] of an empty index *)
  | ValueError (c : cell)           (* [pd.to_datetime] cannot read the text *)
  | FileNotFoundError (p : string)  (* [read_csv] of a missing file *)
  | NameError (x : string).         (* a local variable that was never bound *)

(** ** The world and the monad *)

Record world := World {
  dirs : gset string;          (* directories that exist *)
  files : gmap string csv;     (* files that exist, with their content *)
  stdout : list message;       (* what was printed, oldest first *)
  calls : list call;           (* calls made to the provider, oldest first *)
}.

Inductive outcome (A : Type) :=
  | Done (a : A) (w : world)       (* returned [a] *)
  | Raised (e : exn) (w : world).  (* an exception left the call *)
Arguments Done {A} a w.
Arguments Raised {A} e w.

Definition M (A : Type) : Type := world → outcome A.

#[global] Instance M_ret : MRet M := λ A a w, Done a w.
#[global] Instance M_bind : MBind M := λ A B f m w,
  match m w with
  | Done a w' => f a w'
  | Raised e w' => Raised e w'
  end.

Definition raise {A} (e : exn) : M A := λ w, Raised e w.

(** [try: body  except Exception as e: handler e] *)
Definition try_except {A} (body : M A) (handler : exn → M A) : M A := λ w,
  match body w with
  | Done a w' => Done a w'
  | Raised e w' => handler e w'
  end.

(** [str(e)] for an exception. *)
Definition str_exn (e : exn) : string :=
  match e with
  | ProviderError s => s
  | IndexError => "index -1 is out of bounds for axis 0 with size 0"
  | ValueError _ => "time data doesn't match format"
  | FileNotFoundError p => "No such file or directory: " +:+ p
  | NameError x => "name '" +:+ x +:+ "' is not defined"
  end.

(** The four ways a call changes the world. *)
Definition with_dir (p : string) (w : world) : world :=
  World ({[p]} ∪ dirs w) (files w) (stdout w) (calls w).
Definition with_file (p : string) (rows : csv) (w : world) : world :=
  World (dirs w) (<[p := rows]> (files w)) (stdout w) (calls w).
Definition with_line (m : message) (w : world) : world :=
  World (dirs w) (files w) (stdout w ++ [m]) (calls w).
Definition with_call (c : call) (w : world) : world :=
  World (dirs w) (files w) (stdout w) (calls w ++ [c]).

(** The world a call leaves behind, however it ends. *)
Definition world_of {A} (o : outcome A) : world :=
  match o with Done _ w => w | Raised _ w => w end.

Definition print (m : message) : M unit := λ w, Done tt (with_line m w).

(** ** The operating system: [os.path.join], [os.makedirs], [os.path.exists] *)

Fixpoint endswith_sep (s : string) : bool :=
  match s with
  | EmptyString => false
  | String a EmptyString => bool_decide (a = "/"%char)
  | String _ s' => endswith_sep s'
  end.

Definition startswith_sep (s : string) : bool :=
  match s with
  | String a _ => bool_decide (a = "/"%char)
  | EmptyString => false
  end.

(** posixpath.join for two components. *)
Definition os_path_join (a b : string) : string :=
  if startswith_sep b then b
  else if bool_decide (a = EmptyString) || endswith_sep a then a +:+ b
  else a +:+ "/" +:+ b.

(** [os.makedirs(p, exist_ok=True)]: afterwards the directory exists. *)
Definition os_makedirs (p : string) : M unit := λ w, Done tt (with_dir p w).

(** [os.path.exists(p)] for the path of a file. *)
Definition os_path_exists (p : string) : M bool := λ w,
  Done (bool_decide (is_Some (files w !! p))) w.

(** ** pandas, as far as the warehouse uses it *)

(** [df.index] *)
Definition index (df : DataFrame) : list label := df.*1.

(** [pd.read_csv(path, index_col=0)], line 76: no [parse_dates], so every
    label stays the text of its cell (an index of dtype [object]).  The
    source itself treats it so: line 77 passes the last label through
    [pd.to_datetime] before adding a day to it, and the reader, line 122,
    asks for [parse_dates=True]. *)
Definition read_csv (path : string) : M DataFrame := λ w,
  match files w !! path with
  | Some rows => Done (prod_map Text id <$> rows) w
  | None => Raised (FileNotFoundError path) w
  end.

(** [ix[-1]] *)
Definition index_last (ix : list label) : M label :=
  match last ix with
  | Some l => mret l
  | None => raise IndexError
  end.

(** [pd.to_datetime(x)] for one label: a text is parsed on its own, in
    whichever spelling it is; a [Timestamp] is returned as it is.  The result
    is the day of the [Timestamp]. *)
Definition to_datetime (x : label) : M Z :=
  match x with
  | Text (DateCell _ d) => mret d
  | Text (OtherCell s) => raise (ValueError (OtherCell s))
  | Stamp d => mret d
  end.

(** Parsing one label in a given spelling. *)
Definition strptime (l : layout) (x : label) : M label :=
  match x with
  | Stamp d => mret (Stamp d)
  | Text (DateCell l' d) =>
      if decide (l' = l) then mret (Stamp d) else raise (ValueError (DateCell l' d))
  | Text (OtherCell s) => raise (ValueError (OtherCell s))
  end.

(** [[f(x) for x in xs]] *)
Fixpoint for_each_collect {A B} (f : A → M B) (xs : list A) : M (list B) :=
  match xs with
  | [] => mret []
  | x :: xs' => y ← f x; ys ← for_each_collect f xs'; mret (y :: ys)
  end.

(** [pd.to_datetime(ix)] for a whole index: a [DatetimeIndex] is returned as
    it is; for texts the spelling is taken from the first one and every text
    must be in that spelling (pandas 2, strict parsing), else [ValueError]. *)
Definition to_datetime_index (ix : list label) : M (list label) :=
  match ix with
  | [] => mret []
  | Stamp _ :: _ => mret ix
  | Text (DateCell l _) :: _ => for_each_collect (strptime l) ix
  | Text (OtherCell s) :: _ => raise (ValueError (OtherCell s))
  end.

(** [df.index = ix] *)
Definition set_index (df : DataFrame) (ix : list label) : DataFrame :=
  zip ix (df.*2).

(** [pd.read_csv(path, index_col=0, parse_dates=True)]: the labels are
    parsed as dates when that works for all of them and left as text
    otherwise. *)
Definition read_csv_parse_dates (path : string) : M DataFrame :=
  df ← read_csv path;
  try_except (ix ← to_datetime_index (index df); mret (set_index df ix))
             (λ _, mret df).

(** One row under the canonical column names. *)
Definition canonical (r : yf_bar) : bar :=
  {| open := Open r; high := High r; low := Low r;
     close := Close r; volume := Volume r |}.

(** [df.rename(columns={'Open': 'open', 'High': 'high', 'Low': 'low',
    'Close': 'close', 'Volume': 'volume'})]; the index is untouched: a
    [DatetimeIndex]. *)
Definition rename (df : yf_frame) : DataFrame :=
  (λ r, (Stamp r.1, canonical r.2)) <$> df.

(** [df.empty] *)
Definition empty (df : DataFrame) : bool :=
  match df with [] => true | _ => false end.

(** [pd.concat([a, b])]: the rows of [a], then the rows of [b], every label
    the object it was (texts and [Timestamp]s side by side give an index of
    dtype [object]). *)
Definition concat (a b : DataFrame) : DataFrame := a ++ b.

(** [ix.duplicated(keep='last')]: a label is marked when an equal label
    comes later in the index.  Labels are compared as Python objects: two
    texts when they are the same text, two [Timestamp]s when they are the
    same instant, a text and a [Timestamp] never. *)
Fixpoint duplicated_last (ix : list label) : list bool :=
  match ix with
  | [] => []
  | l :: rest => bool_decide (l ∈ rest) :: duplicated_last rest
  end.

(** [df[mask]] with a boolean mask. *)
Fixpoint boolean_index {A} (rows : list A) (mask : list bool) : list A :=
  match rows, mask with
  | r :: rows', m :: mask' =>
      if m then r :: boolean_index rows' mask' else boolean_index rows' mask'
  | _, _ => []
  end.

Definition is_stamp (x : label) : bool :=
  match x with Stamp _ => true | Text _ => false end.

(** An index is a [DatetimeIndex] when all its labels are [Timestamp]s:
    that is the frame of a first run; a frame merged with a stored file
    always keeps a text label (the last stored one at least). *)
Definition is_DatetimeIndex (ix : list label) : bool := forallb is_stamp ix.

(** How [to_csv] writes a label: the labels of a [DatetimeIndex] of
    midnights as the bare date, the objects of any other index by [str]. *)
Definition format_label (datetime_index : bool) (x : label) : cell :=
  match x with
  | Text c => c
  | Stamp d => DateCell (if datetime_index then DateOnly else DateTime) d
  end.

(** The rows [to_csv] writes for a frame. *)
Definition csv_rows (df : DataFrame) : csv :=
  prod_map (format_label (is_DatetimeIndex (index df))) id <$> df.

(** [df.to_csv(path)]: the file is written anew in full. *)
Definition to_csv (df : DataFrame) (path : string) : M unit := λ w,
  Done tt (with_file path (csv_rows df) w).

(** ** The class *)

Record YahooFinanceDataWarehouse := Warehouse { root_dir : string }.

Section YahooFinanceDataWarehouse.

(** yfinance and the clock, as the environment supplies them. *)
Variable yf : provider.
Variable today : Z.

Definition yf_download (symbol : string) (start : option Z) (end_ : Z)
  : M yf_frame := λ w,
  let w' := with_call (Download symbol start end_) w in
  match download yf symbol start end_ with
  | Gives df => Done df w'
  | Fails e => Raised (ProviderError e) w'
  end.

Definition yf_Ticker_history (symbol period : string) : M intraday := λ w,
  let w' := with_call (History symbol period) w in
  match history yf symbol period with
  | Gives df => Done df w'
  | Fails e => Raised (ProviderError e) w'
  end.

(** [datetime.today().strftime('%Y-%m-%d')] *)
Definition datetime_today : M Z := mret today.

Definition __init__ (root_dir : string) : M YahooFinanceDataWarehouse :=
  os_makedirs root_dir;;
  mret (Warehouse root_dir).

Definition _get_symbol_path (self : YahooFinanceDataWarehouse)
    (symbol market : string) : M string :=
  let market_dir := os_path_join (root_dir self) market in
  os_makedirs market_dir;;
  mret (os_path_join market_dir (symbol +:+ ".csv")).

Definition _download_historical_data (self : YahooFinanceDataWarehouse)
    (symbol : string) (start : option Z) (end_ : Z) : M (option DataFrame) :=
  try_except
    (df ← yf_download symbol start end_;
     let df := rename df in
     mret (Some df))
    (λ e,
     print (ErrorDownloading symbol (str_exn e));;
     mret None).

Definition update_historical_data (self : YahooFinanceDataWarehouse)
    (symbol market : string) : M unit :=
  file_path ← _get_symbol_path self symbol market;
  let full_symbol :=
    if bool_decide (market = "HK") then symbol +:+ "." +:+ market else symbol in
  file_exists ← os_path_exists file_path;
  '(existing_df, start_date) ←
    (if file_exists : bool then
       existing_df ← read_csv file_path;
       last_label ← index_last (index existing_df);
       last_date ← to_datetime last_label;
       let start_date := last_date + 1 in
       mret (Some existing_df, Some start_date)
     else
       mret (None, None));
  end_ ← datetime_today;
  new_data ← _download_historical_data self full_symbol start_date end_;
  match new_data with
  | Some new_data =>
      if negb (empty new_data) then
        file_exists ← os_path_exists file_path;
        updated_df ←
          (if file_exists : bool then
             match existing_df with
             | Some existing_df => mret (concat existing_df new_data)
             | None => raise (NameError "existing_df")
             end
           else
             mret new_data);
        let updated_df :=
          boolean_index updated_df (negb <$> duplicated_last (index updated_df)) in
        to_csv updated_df file_path;;
        print (Updated symbol (length new_data))
      else
        print (NoNewData symbol)
  | None =>
      print (NoNewData symbol)
  end.

Definition get_realtime_data (self : YahooFinanceDataWarehouse)
    (symbol market period : string) : M (option intraday) :=
  let full_symbol :=
    if bool_decide (market = "HK") then symbol +:+ "." +:+ market else symbol in
  try_except
    (df ← yf_Ticker_history full_symbol period;
     mret (Some df))
    (λ e,
     print (ErrorRealtime (str_exn e));;
     mret None).

Definition get_local_data (self : YahooFinanceDataWarehouse)
    (symbol market : string) : M (option DataFrame) :=
  file_path ← _get_symbol_path self symbol market;
  file_exists ← os_path_exists file_path;
  if file_exists : bool then
    df ← read_csv_parse_dates file_path;
    ix ← to_datetime_index (index df);
    let df := set_index df ix in
    mret (Some df)
  else
    print (NoLocalData symbol market);;
    mret None.

(** [for x in xs: body x] *)
Fixpoint for_each {A} (xs : list A) (body : A → M unit) : M unit :=
  match xs with
  | [] => mret tt
  | x :: xs' => body x;; for_each xs' body
  end.

Definition batch_update (self : YahooFinanceDataWarehouse)
    (symbol_list markets : list string) : M unit :=
  for_each (zip symbol_list markets)
    (λ '(symbol, market), update_historical_data self symbol market).

End YahooFinanceDataWarehouse.

(** ** Names for what the methods compute on the way *)

(** [market_dir] and [file_path] of [_get_symbol_path]. *)
Definition market_dir (self : YahooFinanceDataWarehouse) (market : string) : string :=
  os_path_join (root_dir self) market.

Definition symbol_path (self : YahooFinanceDataWarehouse)
    (symbol market : string) : string :=
  os_path_join (market_dir self market) (symbol +:+ ".csv").

(** [full_symbol] of [update_historical_data] and [get_realtime_data]. *)
Definition ticker (symbol market : string) : string :=
  if bool_decide (market = "HK") then symbol +:+ "." +:+ market else symbol.

(** Line 97: [df[~df.index.duplicated(keep='last')]]. *)
Definition drop_duplicates_last (df : DataFrame) : DataFrame :=
  boolean_index df (negb <$> duplicated_last (index df)).

(** Lines 89 to 101, once the fetch has answered [r] for [ticker]:
    [existing_df] is the frame read at line 76, if there was a file. *)
Definition merge_and_save (path symbol : string) (existing_df : option DataFrame)
    (ticker : string) (r : response yf_frame) (w : world) : outcome unit :=
  match r with
  | Fails e =>
      Done tt (with_line (NoNewData symbol) (with_line (ErrorDownloading ticker e) w))
  | Gives [] =>
      Done tt (with_line (NoNewData symbol) w)
  | Gives df =>
      Done tt (with_line (Updated symbol (length df))
        (with_file path
           (csv_rows (drop_duplicates_last (default [] existing_df ++ rename df))) w))
  end.

(** ** Vocabulary of the properties *)

(** The fetch brought nothing: it raised, or it returned a frame of zero rows. *)
Definition no_data (r : response yf_frame) : Prop :=
  match r with Fails _ => True | Gives df => df = [] end.


(** The calendar day a cell, or a label, stands for. *)
Definition cell_day (c : cell) : option Z :=
  match c with DateCell _ d => Some d | OtherCell _ => None end.

Definition label_day (x : label) : option Z :=
  match x with Text c => cell_day c | Stamp d => Some d end.

(** The days of the rows of a file, in file order; [None] when some row is
    not labelled by a date. *)
Definition csv_days (rows : csv) : option (list Z) := mapM cell_day (rows.*1).

Fixpoint ascending (ds : list Z) : bool :=
  match ds with
  | d :: (d' :: _) as rest => (d <=? d') && ascending rest
  | _ => true
  end.

(** The rows of the file are in ascending order of date. *)
Definition sorted_by_date (rows : csv) : bool :=
  match csv_days rows with Some ds => ascending ds | None => false end.

(** How many rows of the file are bars of day [d]. *)
Definition bars_on (d : Z) (rows : csv) : nat :=
  length (filter (λ r, cell_day r.1 = Some d) rows).

(** The spec's words, section 4.3 step 6: deduplicate by date, keeping the
    last occurrence of every date. *)
Fixpoint dedup_by_date_keep_last (rows : list (Z * bar)) : list (Z * bar) :=
  match rows with
  | [] => []
  | (d, b) :: rest =>
      if bool_decide (d ∈ rest.*1) then dedup_by_date_keep_last rest
      else (d, b) :: dedup_by_date_keep_last rest
  end.

(** The fetched rows under the canonical column names, by day. *)
Definition fetched (df : yf_frame) : list (Z * bar) := prod_map id canonical <$> df.

(** A file of bare dates, as a first run writes it. *)
Definition date_only_rows (rows : list (Z * bar)) : csv :=
  prod_map (DateCell DateOnly) id <$> rows.

(** The same rows with [Timestamp] labels. *)
Definition stamped (rows : list (Z * bar)) : DataFrame := prod_map Stamp id <$> rows.

(** The stored file, if there is one, lets lines 76 to 78 through: its last
    row is labelled by a date. *)
Definition last_date_readable (w : world) (path : string) : Prop :=
  match files w !! path with
  | None => True
  | Some rows =>
      match last rows with Some (DateCell _ _, _) => True | _ => False end
  end.

(** ** Concrete worlds *)

Definition dw : YahooFinanceDataWarehouse := Warehouse "stock_data".

Definition quote (c : Z) : bar :=
  {| open := c - 1; high := c + 2; low := c - 3; close := c; volume := 1000 |}.

Definition yf_quote (c : Z) : yf_bar :=
  {| Open := c - 1; High := c + 2; Low := c - 3; Close := c; Volume := 1000 |}.

(** A fresh disk: nothing but the root directory, made by
    [YahooFinanceDataWarehouse()] on an empty disk. *)
Definition fresh : world := world_of (__init__ "stock_data" (World ∅ ∅ [] [])).

(** A provider that answers every download with the same frame. *)
Definition serving (df : yf_frame) : provider :=
  {| download := λ _ _ _, Gives df; history := λ _ _, Gives [] |}.

(** A provider whose every call raises. *)
Definition offline : provider :=
  {| download := λ _ _ _, Fails "connection refused";
     history := λ _ _, Fails "connection refused" |}.


Definition D1_D5 : yf_frame :=
  [(1, yf_quote 101); (2, yf_quote 102); (3, yf_quote 103); (4, yf_quote 104);
   (5, yf_quote 105)].

(** Days 4 and 5 again, with revised prices, then days 6 and 7. *)
Definition D4_D7 : yf_frame :=
  [(4, yf_quote 204); (5, yf_quote 205); (6, yf_quote 106); (7, yf_quote 107)].

(** Day 3 again, with a revised price, then day 6. *)
Definition D3_D6 : yf_frame := [(3, yf_quote 203); (6, yf_quote 106)].

Definition D6_D7 : yf_frame := [(6, yf_quote 106); (7, yf_quote 107)].

(** The disk after a first run for AAPL on day 6 that fetched days 1 to 5. *)
Definition after_first_run : world :=
  world_of (update_historical_data (serving D1_D5) 6 dw "AAPL" "US" fresh).

(** ** Stored files the updater cannot use *)

(** A disk whose AAPL file holds the header line and no row. *)
Definition header_only : world :=
  World {["stock_data"; "stock_data/US"]} {["stock_data/US/AAPL.csv" := []]} [] [].

(** A disk whose AAPL file ends with a row that is not labelled by a date. *)
Definition with_footer : world :=
  World {["stock_data"; "stock_data/US"]}
        {["stock_data/US/AAPL.csv" :=
            [(DateCell DateOnly 1, quote 101); (OtherCell "Total", quote 0)]]} [] [].

(** * Properties *)

#[global] Arguments rename : simpl never.
#[global] Arguments csv_rows : simpl never.
#[global] Arguments drop_duplicates_last : simpl never.

(** ** The monad and the world *)

Lemma for_each_app {A} (xs ys : list A) (body : A → M unit) w :
  for_each (xs ++ ys) body w =
  match for_each xs body w with
  | Done _ w1 => for_each ys body w1
  | Raised e w1 => Raised e w1
  end.
Proof.
  revert w. induction xs as [|x xs IH]; intros w; simpl; [done|].
  unfold mbind, M_bind. destruct (body x w) as [[] w1|e w1]; [apply IH|done].
Qed.

Lemma app_singleton_neq {A} (l : list A) (x : A) : l ≠ l ++ [x].
Proof.
  intros H. apply (f_equal length) in H. rewrite length_app in H. simpl in H.
  apply (f_equal Z.of_nat) in H. lia.
Qed.

(** ** Dropping duplicated labels (line 97) *)

Lemma drop_duplicates_last_cons r (df : DataFrame) :
  drop_duplicates_last (r :: df) =
  if bool_decide (r.1 ∈ index df) then drop_duplicates_last df
  else r :: drop_duplicates_last df.
Proof. unfold drop_duplicates_last. simpl. by case_bool_decide. Qed.

Lemma drop_duplicates_last_sublist (df : DataFrame) :
  drop_duplicates_last df `sublist_of` df.
Proof.
  induction df as [|r df IH]; [constructor|].
  rewrite drop_duplicates_last_cons. case_bool_decide; by constructor.
Qed.

Lemma drop_duplicates_last_index (df : DataFrame) x :
  x ∈ index (drop_duplicates_last df) ↔ x ∈ index df.
Proof.
  unfold index. induction df as [|r df IH]; [done|].
  rewrite drop_duplicates_last_cons. case_bool_decide as Hr.
  - rewrite IH, fmap_cons, elem_of_cons. unfold index in Hr.
    split; [by right|]. by intros [->|?].
  - by rewrite !fmap_cons, !elem_of_cons, IH.
Qed.

(** No two rows of the frame that is written carry the same label. *)
Lemma drop_duplicates_last_NoDup (df : DataFrame) :
  NoDup (index (drop_duplicates_last df)).
Proof.
  induction df as [|r df IH]; [constructor|].
  rewrite drop_duplicates_last_cons. case_bool_decide as Hr; [done|].
  unfold index. rewrite fmap_cons. constructor; [|done].
  intros Hin. apply Hr. by apply drop_duplicates_last_index.
Qed.

(** The last row is never dropped. *)
Lemma drop_duplicates_last_last (df : DataFrame) :
  last (drop_duplicates_last df) = last df.
Proof.
  induction df as [|r df IH]; [done|].
  rewrite drop_duplicates_last_cons. case_bool_decide as Hr.
  - rewrite IH. destruct df; [|done]. unfold index in Hr. simpl in Hr. by apply elem_of_nil in Hr.
  - by rewrite !last_cons, IH.
Qed.

(** ** The run of [update_historical_data], branch by branch *)

(** Lines 71 to 101 unfolded: the directory is made, then either the stored
    file stops the call ([index[-1]] of no row, or a last label that is not
    a date), or the fetch is made and lines 89 to 101 follow. *)
Lemma update_historical_data_run yf today self symbol market w :
  update_historical_data yf today self symbol market w =
  let path := symbol_path self symbol market in
  let t := ticker symbol market in
  let w1 := with_dir (market_dir self market) w in
  match files w !! path with
  | Some rows =>
      match last rows with
      | None => Raised IndexError w1
      | Some (OtherCell s, _) => Raised (ValueError (OtherCell s)) w1
      | Some (DateCell _ d, _) =>
          merge_and_save path symbol (Some (prod_map Text id <$> rows)) t
            (download yf t (Some (d + 1)) today)
            (with_call (Download t (Some (d + 1)) today) w1)
      end
  | None =>
      merge_and_save path symbol None t (download yf t None today)
        (with_call (Download t None today) w1)
  end.
Proof.
  cbv zeta. unfold update_historical_data, _get_symbol_path.
  unfold mbind, M_bind, mret, M_ret, os_makedirs, os_path_exists. simpl.
  fold (market_dir self market). fold (symbol_path self symbol market).
  fold (ticker symbol market).
  destruct (files w !! symbol_path self symbol market) as [rows|] eqn:Hf.
  - rewrite bool_decide_true by eauto.
    unfold read_csv. simpl. rewrite Hf.
    unfold index_last, index. rewrite !fmap_last.
    destruct (last rows) as [[c b]|] eqn:Hl; simpl; [|done].
    destruct c as [l d|s]; simpl; [|done].
    unfold _download_historical_data, try_except, yf_download, mbind, M_bind,
      mret, M_ret. simpl.
    destruct (download yf (ticker symbol market) (Some (d + 1)) today)
      as [e|df] eqn:Hd; simpl; [done|].
    destruct df as [|r df]; simpl; [done|].
    rewrite Hf, bool_decide_true by eauto.
    unfold print, rename. by rewrite length_fmap.
  - rewrite bool_decide_false by (intros [? ?]; done).
    unfold _download_historical_data, try_except, yf_download, mbind, M_bind,
      mret, M_ret. simpl.
    destruct (download yf (ticker symbol market) None today)
      as [e|df] eqn:Hd; simpl; [done|].
    destruct df as [|r df]; simpl; [done|].
    rewrite Hf, bool_decide_false by (intros [? ?]; done).
    unfold print, rename. by rewrite length_fmap.
Qed.

Lemma merge_and_save_done path symbol existing_df t r w :
  ∃ w', merge_and_save path symbol existing_df t r w = Done tt w'.
Proof. destruct r as [e|[|??]]; simpl; eauto. Qed.

Lemma merge_and_save_calls path symbol existing_df t r w :
  calls (world_of (merge_and_save path symbol existing_df t r w)) = calls w.
Proof. by destruct r as [e|[|??]]. Qed.

Lemma merge_and_save_no_data path symbol existing_df t r w :
  no_data r →
  ∃ w', merge_and_save path symbol existing_df t r w = Done tt w' ∧
        files w' = files w ∧ dirs w' = dirs w ∧ calls w' = calls w ∧
        last (stdout w') = Some (NoNewData symbol).
Proof.
  destruct r as [e|df]; simpl.
  - intros _. eexists. split; [done|]. simpl. by rewrite last_snoc.
  - intros ->. eexists. split; [done|]. simpl. by rewrite last_snoc.
Qed.

Ltac inspect_merge :=
  match goal with
  | |- context [merge_and_save ?p ?s ?e ?t ?r ?w0] =>
      let Hc := fresh "Hc" in
      let Hw := fresh "Hw" in
      let w' := fresh "w'" in
      pose proof (merge_and_save_calls p s e t r w0) as Hc;
      destruct (merge_and_save_done p s e t r w0) as [w' Hw];
      rewrite Hw in Hc |- *; simpl in Hc; eauto
  end.

(** What the call leaves in the log of provider calls: nothing when the
    stored file stopped it, one download otherwise. *)
Lemma update_historical_data_calls yf today self symbol market w :
  match update_historical_data yf today self symbol market w with
  | Done _ w' =>
      ∃ start, calls w' = calls w ++ [Download (ticker symbol market) start today]
  | Raised _ w' => calls w' = calls w
  end.
Proof.
  rewrite update_historical_data_run. cbv zeta.
  destruct (files w !! symbol_path self symbol market) as [rows|].
  - destruct (last rows) as [[[l d|s] b]|]; [|done..]. inspect_merge.
  - inspect_merge.
Qed.

(** When the fetch is made and brings nothing, the call returns and no file
    is touched. *)
Lemma update_historical_data_no_data yf today self symbol market w t start end_ :
  calls (world_of (update_historical_data yf today self symbol market w))
    = calls w ++ [Download t start end_] →
  no_data (download yf t start end_) →
  ∃ w', update_historical_data yf today self symbol market w = Done tt w' ∧
        files w' = files w ∧
        dirs w' = {[market_dir self market]} ∪ dirs w ∧
        last (stdout w') = Some (NoNewData symbol).
Proof.
  rewrite update_historical_data_run. cbv zeta. intros Hcalls Hno.
  destruct (files w !! symbol_path self symbol market) as [rows|].
  - destruct (last rows) as [[[l d|s] b]|]; simpl in Hcalls;
      [|by apply app_singleton_neq in Hcalls..].
    rewrite merge_and_save_calls in Hcalls. simpl in Hcalls.
    apply app_inv_head in Hcalls. injection Hcalls as <- <- <-.
    edestruct merge_and_save_no_data as (w' & -> & ? & ? & ? & ?); [done|].
    eauto.
  - rewrite merge_and_save_calls in Hcalls. simpl in Hcalls.
    apply app_inv_head in Hcalls. injection Hcalls as <- <- <-.
    edestruct merge_and_save_no_data as (w' & -> & ? & ? & ? & ?); [done|].
    eauto.
Qed.

(** After a call that returned, the stored file is fit for the next call:
    either it was left as it was, or its last row is the last fetched one. *)
Lemma written_rows_last (existing_df : DataFrame) r (df : yf_frame) :
  ∃ l d b,
    last (csv_rows (drop_duplicates_last (existing_df ++ rename (r :: df))))
      = Some (DateCell l d, b).
Proof.
  unfold csv_rows. rewrite fmap_last, drop_duplicates_last_last, last_app.
  unfold rename. rewrite fmap_last.
  destruct (last (r :: df)) as [[d yb]|] eqn:Hl.
  - simpl. eauto.
  - by apply last_None in Hl.
Qed.

Lemma update_historical_data_readable yf today self symbol market w w1 :
  update_historical_data yf today self symbol market w = Done tt w1 →
  last_date_readable w1 (symbol_path self symbol market).
Proof.
  rewrite update_historical_data_run. cbv zeta. unfold last_date_readable.
  destruct (files w !! symbol_path self symbol market) as [rows|] eqn:Hf.
  - destruct (last rows) as [[[l d|s] b]|] eqn:Hl; [|done..].
    destruct (download yf _ _ _) as [e|[|r df]]; simpl; intros [= <-]; simpl.
    + by rewrite Hf, Hl.
    + by rewrite Hf, Hl.
    + rewrite lookup_insert_eq.
      by destruct (written_rows_last (prod_map Text id <$> rows) r df)
        as (l' & d' & b' & ->).
  - destruct (download yf _ _ _) as [e|[|r df]]; simpl; intros [= <-]; simpl.
    + by rewrite Hf.
    + by rewrite Hf.
    + rewrite lookup_insert_eq.
      destruct (written_rows_last [] r df) as (l' & d' & b' & Hl').
      simpl in Hl'. by rewrite Hl'.
Qed.

(** A call on such a disk does make its fetch. *)
Lemma update_historical_data_fetches yf today self symbol market w :
  last_date_readable w (symbol_path self symbol market) →
  ∃ start,
    calls (world_of (update_historical_data yf today self symbol market w))
      = calls w ++ [Download (ticker symbol market) start today].
Proof.
  rewrite update_historical_data_run. cbv zeta. unfold last_date_readable.
  destruct (files w !! symbol_path self symbol market) as [rows|].
  - destruct (last rows) as [[[l d|s] b]|]; [|done..].
    intros _. rewrite merge_and_save_calls. simpl. eauto.
  - intros _. rewrite merge_and_save_calls. simpl. eauto.
Qed.

(** ** First run: what is written is the fetch, deduplicated by date *)

Lemma rename_stamped (df : yf_frame) : rename df = stamped (fetched df).
Proof.
  unfold rename, stamped, fetched. rewrite <-list_fmap_compose.
  apply list_fmap_ext. by intros _ [d yb] _.
Qed.

Lemma drop_duplicates_last_stamped (rows : list (Z * bar)) :
  drop_duplicates_last (stamped rows) = stamped (dedup_by_date_keep_last rows).
Proof.
  induction rows as [|[d b] rows IH]; [done|].
  unfold stamped in *. rewrite fmap_cons, drop_duplicates_last_cons. simpl.
  assert (Stamp d ∈ index (prod_map Stamp id <$> rows) ↔ d ∈ rows.*1) as Hin.
  { unfold index. rewrite <-list_fmap_compose.
    rewrite (list_fmap_ext _ (Stamp ∘ fst) rows) by (by intros _ [??] _).
    rewrite list_fmap_compose, list_elem_of_fmap. split.
    - by intros (d' & [= ->] & ?).
    - eauto. }
  repeat case_bool_decide; try tauto; by rewrite IH.
Qed.

Lemma csv_rows_stamped (rows : list (Z * bar)) :
  csv_rows (stamped rows) = date_only_rows rows.
Proof.
  unfold csv_rows, date_only_rows.
  assert (is_DatetimeIndex (index (stamped rows)) = true) as ->.
  { unfold is_DatetimeIndex, index, stamped. induction rows as [|[??] ? IH]; [done|].
    simpl. apply IH. }
  unfold stamped. rewrite <-list_fmap_compose.
  apply list_fmap_ext. by intros _ [d b] _.
Qed.

(** ** Settled properties of [update_historical_data] *)

(** C5. Whenever the fetch the updater makes returns zero rows or raises
    (so that [_download_historical_data] yields None), the call does not
    fail: it returns, every file is left exactly as it was (nothing is
    written; the one change on disk is the directory of the market that
    [_get_symbol_path] makes sure of), and the last line printed is
    "No new data for {symbol}". *)
Theorem C5_no_data_leaves_files_untouched
    yf today self symbol market w t start end_ :
  calls (world_of (update_historical_data yf today self symbol market w))
    = calls w ++ [Download t start end_] →
  no_data (download yf t start end_) →
  ∃ w', update_historical_data yf today self symbol market w = Done tt w' ∧
        files w' = files w ∧
        dirs w' = {[market_dir self market]} ∪ dirs w ∧
        last (stdout w') = Some (NoNewData symbol).
Proof. apply update_historical_data_no_data. Qed.

(** The provider is down on day 7; the file of days 1 to 5 stays. *)
Lemma C5_witness :
  ∃ w', update_historical_data offline 7 dw "AAPL" "US" after_first_run = Done tt w' ∧
        files w' = files after_first_run ∧
        dirs w' = {[market_dir dw "US"]} ∪ dirs after_first_run ∧
        last (stdout w') = Some (NoNewData "AAPL").
Proof.
  apply (C5_no_data_leaves_files_untouched
           offline 7 dw "AAPL" "US" after_first_run "AAPL" (Some 6) 7).
  - vm_compute. reflexivity.
  - exact I.
Defined.

(** C7. The updater asks the provider for the ticker of the pair with
    [end] today and with [start] the day after the last stored date when a
    file is there (its last row labelled by a date), and with no [start]
    at all when no file is there; in that second case, when the fetch
    brings rows, the file created holds exactly the fetched rows
    deduplicated by date, the last occurrence of a date kept. *)
Theorem C7_start_date_and_first_run yf today self symbol market w :
  (∀ rows l d b,
     files w !! symbol_path self symbol market = Some rows →
     last rows = Some (DateCell l d, b) →
     calls (world_of (update_historical_data yf today self symbol market w))
       = calls w ++ [Download (ticker symbol market) (Some (d + 1)) today]) ∧
  (files w !! symbol_path self symbol market = None →
     calls (world_of (update_historical_data yf today self symbol market w))
       = calls w ++ [Download (ticker symbol market) None today] ∧
     ∀ df, download yf (ticker symbol market) None today = Gives df →
           df ≠ [] →
           files (world_of (update_historical_data yf today self symbol market w))
             = <[symbol_path self symbol market :=
                   date_only_rows (dedup_by_date_keep_last (fetched df))]> (files w)).
Proof.
  rewrite update_historical_data_run. cbv zeta. split.
  - intros rows l d b -> ->. by rewrite merge_and_save_calls.
  - intros ->. split; [by rewrite merge_and_save_calls|].
    intros df -> Hdf. destruct df as [|r df]; [done|].
    simpl. f_equal.
    change (?x :: rename df) with (rename (r :: df)).
    by rewrite rename_stamped, drop_duplicates_last_stamped, csv_rows_stamped.
Qed.

(** The second run for AAPL asks from day 6 on, the day after the last
    stored one; a first run for 0700 in HK asks for "0700.HK" with no
    start and writes what it fetched. *)
Lemma C7_witness :
  calls (world_of (update_historical_data (serving D4_D7) 8 dw "AAPL" "US" after_first_run))
    = calls after_first_run ++ [Download "AAPL" (Some (5 + 1)) 8] ∧
  calls (world_of (update_historical_data (serving D1_D5) 6 dw "0700" "HK" fresh))
    = calls fresh ++ [Download "0700.HK" None 6] ∧
  files (world_of (update_historical_data (serving D1_D5) 6 dw "0700" "HK" fresh))
    = <["stock_data/HK/0700.csv" :=
          date_only_rows (dedup_by_date_keep_last (fetched D1_D5))]> (files fresh).
Proof.
  destruct (C7_start_date_and_first_run (serving D4_D7) 8 dw "AAPL" "US" after_first_run)
    as [Hstored _].
  destruct (C7_start_date_and_first_run (serving D1_D5) 6 dw "0700" "HK" fresh)
    as [_ Hfirst].
  split.
  - apply (Hstored (date_only_rows (fetched D1_D5)) DateOnly 5 (quote 105));
      vm_compute; reflexivity.
  - destruct Hfirst as [Hcall Hfile]; [vm_compute; reflexivity|].
    split; [exact Hcall|].
    apply (Hfile D1_D5); [reflexivity|discriminate].
Defined.

(** A call whose fetch, if it is made at all, brings nothing writes no file. *)
Lemma update_historical_data_files_kept yf today self symbol market w :
  (∀ t start end_,
     calls (world_of (update_historical_data yf today self symbol market w))
       = calls w ++ [Download t start end_] →
     no_data (download yf t start end_)) →
  files (world_of (update_historical_data yf today self symbol market w)) = files w.
Proof.
  intros Hnothing.
  pose proof (update_historical_data_calls yf today self symbol market w) as Hcalls.
  destruct (update_historical_data yf today self symbol market w) as [[] w'|e w'] eqn:Hrun.
  - destruct Hcalls as [start Hcalls].
    assert (calls (world_of (update_historical_data yf today self symbol market w))
            = calls w ++ [Download (ticker symbol market) start today]) as Hcall
      by (by rewrite Hrun).
    destruct (update_historical_data_no_data _ _ _ _ _ _ _ _ _ Hcall
                (Hnothing _ _ _ Hcalls)) as (w2 & Hrun2 & Hfiles & _).
    rewrite Hrun in Hrun2. by injection Hrun2 as <-.
  - revert Hrun. rewrite update_historical_data_run. cbv zeta.
    destruct (files w !! symbol_path self symbol market) as [rows|].
    + destruct (last rows) as [[[l d|s] b]|]; [|by intros [= <- <-]..].
      by destruct (merge_and_save_done (symbol_path self symbol market) symbol
                     (Some (prod_map Text id <$> rows)) (ticker symbol market)
                     (download yf (ticker symbol market) (Some (d + 1)) today)
                     (with_call (Download (ticker symbol market) (Some (d + 1)) today)
                        (with_dir (market_dir self market) w))) as [w2 ->].
    + by destruct (merge_and_save_done (symbol_path self symbol market) symbol
                     None (ticker symbol market)
                     (download yf (ticker symbol market) None today)
                     (with_call (Download (ticker symbol market) None today)
                        (with_dir (market_dir self market) w))) as [w2 ->].
Qed.

(** C4. Two calls of the updater in a row for the same pair: when the
    fetch of the second call brings nothing (zero rows, or an exception,
    that is an absent result), every file is after the second call exactly
    what it was after the first call; and when the first call returned, the
    second call returns too. *)
Theorem C4_second_update_without_new_data
    yf1 today1 yf2 today2 self symbol market w w1 :
  w1 = world_of (update_historical_data yf1 today1 self symbol market w) →
  (∀ t start end_,
     calls (world_of (update_historical_data yf2 today2 self symbol market w1))
       = calls w1 ++ [Download t start end_] →
     no_data (download yf2 t start end_)) →
  files (world_of (update_historical_data yf2 today2 self symbol market w1)) = files w1 ∧
  (update_historical_data yf1 today1 self symbol market w = Done tt w1 →
   ∃ w2, update_historical_data yf2 today2 self symbol market w1 = Done tt w2).
Proof.
  intros _ Hnothing. split; [by apply update_historical_data_files_kept|].
  intros Hfirst.
  pose proof (update_historical_data_readable _ _ _ _ _ _ _ Hfirst) as Hread.
  destruct (update_historical_data_fetches yf2 today2 _ _ _ _ Hread) as [start Hcall].
  destruct (update_historical_data_no_data _ _ _ _ _ _ _ _ _ Hcall
              (Hnothing _ _ _ Hcall)) as (w2 & Hrun & _).
  eauto.
Qed.

(** A first run on day 6 writes days 1 to 5; a second run the same day
    fetches zero rows, returns, and leaves the file as it is. *)
Lemma C4_witness :
  files (world_of (update_historical_data (serving []) 6 dw "AAPL" "US" after_first_run))
    = files after_first_run ∧
  ∃ w2, update_historical_data (serving []) 6 dw "AAPL" "US" after_first_run = Done tt w2.
Proof.
  destruct (C4_second_update_without_new_data
              (serving D1_D5) 6 (serving []) 6 dw "AAPL" "US" fresh after_first_run)
    as [Hfiles Hreturns].
  - reflexivity.
  - intros t start end_ _. reflexivity.
  - split; [exact Hfiles|]. apply Hreturns. vm_compute. reflexivity.
Defined.

(** ** The fetch boundary *)

(** C6. A provider error raised inside the historical fetch or the intraday
    fetch never leaves the method: both always return; when the provider
    call raised, the result is None and the error was printed. *)
Theorem C6_provider_errors_are_caught yf self symbol market start end_ period w :
  (∃ r w',
     _download_historical_data yf self symbol start end_ w = Done r w' ∧
     files w' = files w ∧
     (∀ e, download yf symbol start end_ = Fails e →
           r = None ∧ stdout w' = stdout w ++ [ErrorDownloading symbol e])) ∧
  (∃ r w',
     get_realtime_data yf self symbol market period w = Done r w' ∧
     files w' = files w ∧
     (∀ e, history yf (ticker symbol market) period = Fails e →
           r = None ∧ stdout w' = stdout w ++ [ErrorRealtime e])).
Proof.
  split.
  - unfold _download_historical_data, try_except, yf_download, mbind, M_bind,
      mret, M_ret.
    destruct (download yf symbol start end_) as [e|df]; simpl.
    + do 2 eexists. split; [done|]. split; [done|]. by intros e' [= <-].
    + do 2 eexists. split; [done|]. split; [done|]. by intros e' [=].
  - unfold get_realtime_data, try_except, yf_Ticker_history, mbind, M_bind,
      mret, M_ret. fold (ticker symbol market).
    destruct (history yf (ticker symbol market) period) as [e|df]; simpl.
    + do 2 eexists. split; [done|]. split; [done|]. by intros e' [= <-].
    + do 2 eexists. split; [done|]. split; [done|]. by intros e' [=].
Qed.

(** With the provider down, both fetches return None and say so. *)
Lemma C6_witness :
  _download_historical_data offline dw "AAPL" None 6 fresh
    = Done None (with_line (ErrorDownloading "AAPL" "connection refused")
                   (with_call (Download "AAPL" None 6) fresh)) ∧
  get_realtime_data offline dw "0700" "HK" "1d" fresh
    = Done None (with_line (ErrorRealtime "connection refused")
                   (with_call (History "0700.HK" "1d") fresh)).
Proof.
  destruct (C6_provider_errors_are_caught offline dw "AAPL" "US" None 6 "1d" fresh)
    as [(r1 & w1 & Hrun1 & _ & Herr1) _].
  destruct (C6_provider_errors_are_caught offline dw "0700" "HK" None 6 "1d" fresh)
    as [_ (r2 & w2 & Hrun2 & _ & Herr2)].
  destruct (Herr1 _ eq_refl) as [-> _]. destruct (Herr2 _ eq_refl) as [-> _].
  split.
  - rewrite Hrun1. vm_compute in Hrun1. injection Hrun1 as <-. reflexivity.
  - rewrite Hrun2. vm_compute in Hrun2. injection Hrun2 as <-. reflexivity.
Defined.

(** ** The batch runner *)

Lemma batch_update_cons yf today self symbol symbol_list market markets w :
  batch_update yf today self (symbol :: symbol_list) (market :: markets) w =
  match update_historical_data yf today self symbol market w with
  | Done _ w1 => batch_update yf today self symbol_list markets w1
  | Raised e w1 => Raised e w1
  end.
Proof. done. Qed.

Lemma batch_update_app yf today self (pre post : list (string * string)) w :
  batch_update yf today self ((pre ++ post).*1) ((pre ++ post).*2) w =
  match batch_update yf today self (pre.*1) (pre.*2) w with
  | Done _ w1 => batch_update yf today self (post.*1) (post.*2) w1
  | Raised e w1 => Raised e w1
  end.
Proof. unfold batch_update. by rewrite !zip_fst_snd, for_each_app. Qed.

Lemma batch_update_zip yf today self symbol_list markets w :
  batch_update yf today self symbol_list markets w =
  batch_update yf today self ((zip symbol_list markets).*1)
    ((zip symbol_list markets).*2) w.
Proof. unfold batch_update. by rewrite zip_fst_snd. Qed.






(** ** The local reader *)

Lemma for_each_collect_strptime l (ds : list Z) w :
  for_each_collect (strptime l) (Text ∘ DateCell l <$> ds) w = Done (Stamp <$> ds) w.
Proof.
  induction ds as [|d ds IH]; [done|].
  rewrite !fmap_cons. simpl. unfold mbind, M_bind, mret, M_ret.
  rewrite decide_True by done. by rewrite IH.
Qed.

Lemma for_each_collect_world {A B} (f : A → M B) xs w :
  (∀ x w0, world_of (f x w0) = w0) →
  world_of (for_each_collect f xs w) = w.
Proof.
  intros Hf. induction xs as [|x xs IH]; [done|].
  simpl. unfold mbind, M_bind, mret, M_ret.
  pose proof (Hf x w) as Hx. destruct (f x w) as [y w1|e w1]; simpl in Hx; subst w1;
    [|done].
  destruct (for_each_collect f xs w) as [ys w1|e w1]; simpl in IH; by subst w1.
Qed.

Lemma strptime_world l x w : world_of (strptime l x w) = w.
Proof. destruct x as [[l' d|s]|d]; simpl; [|done..]. by case_decide. Qed.

Lemma to_datetime_index_world ix w : world_of (to_datetime_index ix w) = w.
Proof.
  destruct ix as [|[[l d|s]|d] ix]; [done| |done..].
  unfold to_datetime_index. apply for_each_collect_world, strptime_world.
Qed.

Lemma to_datetime_index_text l (ds : list Z) w :
  to_datetime_index (Text ∘ DateCell l <$> ds) w = Done (Stamp <$> ds) w.
Proof.
  destruct ds as [|d ds]; [done|].
  exact (for_each_collect_strptime l (d :: ds) w).
Qed.

Lemma to_datetime_index_stamps (ds : list Z) w :
  to_datetime_index (Stamp <$> ds) w = Done (Stamp <$> ds) w.
Proof. by destruct ds. Qed.

Lemma read_csv_parse_dates_run path w :
  read_csv_parse_dates path w =
  match files w !! path with
  | Some rows =>
      match to_datetime_index (index (prod_map Text id <$> rows)) w with
      | Done ix _ => Done (set_index (prod_map Text id <$> rows) ix) w
      | Raised _ _ => Done (prod_map Text id <$> rows) w
      end
  | None => Raised (FileNotFoundError path) w
  end.
Proof.
  unfold read_csv_parse_dates, read_csv, try_except, mbind, M_bind, mret, M_ret.
  destruct (files w !! path) as [rows|]; [|done].
  pose proof (to_datetime_index_world (index (prod_map Text id <$> rows)) w) as Hw.
  by destruct (to_datetime_index _ w) as [ix w'|e w']; simpl in Hw; subst w'.
Qed.

(** Lines 120 to 127 unfolded. *)
Lemma get_local_data_run self symbol market w :
  get_local_data self symbol market w =
  match files w !! symbol_path self symbol market with
  | Some rows =>
      match read_csv_parse_dates (symbol_path self symbol market)
              (with_dir (market_dir self market) w) with
      | Done df w1 =>
          match to_datetime_index (index df) w1 with
          | Done ix w2 => Done (Some (set_index df ix)) w2
          | Raised e w2 => Raised e w2
          end
      | Raised e w1 => Raised e w1
      end
  | None =>
      Done None (with_line (NoLocalData symbol market)
                   (with_dir (market_dir self market) w))
  end.
Proof.
  unfold get_local_data, _get_symbol_path, os_makedirs, os_path_exists,
    mbind, M_bind, mret, M_ret.
  fold (market_dir self market). fold (symbol_path self symbol market).
  change (files (with_dir (market_dir self market) w)) with (files w).
  destruct (files w !! symbol_path self symbol market) as [rows|] eqn:Hf.
  - by rewrite bool_decide_true by eauto.
  - by rewrite bool_decide_false by (intros [? ?]; done).
Qed.

(** The reader never writes: however it ends, the files are as before, and
    of the directories only the one of the market is new. *)
Lemma get_local_data_frame self symbol market w :
  files (world_of (get_local_data self symbol market w)) = files w ∧
  dirs (world_of (get_local_data self symbol market w))
    = {[market_dir self market]} ∪ dirs w.
Proof.
  rewrite get_local_data_run.
  destruct (files w !! symbol_path self symbol market) as [rows|] eqn:Hf; [|done].
  rewrite read_csv_parse_dates_run.
  change (files (with_dir (market_dir self market) w)) with (files w). rewrite Hf.
  set (w1 := with_dir (market_dir self market) w).
  set (df := prod_map Text id <$> rows).
  destruct (to_datetime_index (index df) w1) as [ix w2|e w2].
  - pose proof (to_datetime_index_world (index (set_index df ix)) w1) as H2.
    by destruct (to_datetime_index _ w1) as [ix' w3|e w3]; simpl in H2; subst w3.
  - pose proof (to_datetime_index_world (index df) w1) as H2.
    by destruct (to_datetime_index _ w1) as [ix' w3|e' w3]; simpl in H2; subst w3.
Qed.

Lemma set_index_stamps (rows : csv) (ds : list Z) l :
  rows.*1 = DateCell l <$> ds →
  index (set_index (prod_map Text id <$> rows) (Stamp <$> ds)) = Stamp <$> ds.
Proof.
  intros Hrows. unfold index, set_index.
  rewrite fst_zip; [done|].
  rewrite !length_fmap. apply (f_equal length) in Hrows.
  rewrite !length_fmap in Hrows. lia.
Qed.

Lemma get_local_data_dates self symbol market w rows l ds :
  files w !! symbol_path self symbol market = Some rows →
  rows.*1 = DateCell l <$> ds →
  get_local_data self symbol market w =
  Done (Some (zip (Stamp <$> ds) (rows.*2))) (with_dir (market_dir self market) w).
Proof.
  intros Hf Hrows. rewrite get_local_data_run, Hf, read_csv_parse_dates_run.
  change (files (with_dir (market_dir self market) w)) with (files w). rewrite Hf.
  assert (index (prod_map Text id <$> rows) = Text ∘ DateCell l <$> ds) as Hix.
  { unfold index. rewrite <-list_fmap_compose.
    rewrite (list_fmap_ext _ (Text ∘ fst) rows) by (by intros _ [??] _).
    by rewrite list_fmap_compose, Hrows, <-list_fmap_compose. }
  rewrite Hix, to_datetime_index_text.
  rewrite (set_index_stamps _ _ _ Hrows), to_datetime_index_stamps.
  assert (length (Stamp <$> ds) = length rows) as Hlen.
  { apply (f_equal length) in Hrows. by rewrite !length_fmap in *. }
  unfold set_index. rewrite snd_zip by (rewrite !length_fmap in *; lia).
  do 3 f_equal. rewrite <-list_fmap_compose.
  apply list_fmap_ext. by intros _ [??] _.
Qed.

(** C9, as the code has it. The local reader writes to no file, whatever
    the outcome; what it does to the file system is to make sure the
    directory of the market exists, through [_get_symbol_path]. When no file
    is there it prints "No local data found for {symbol} in {market}" and
    returns None; when a file is there whose rows are labelled by dates in
    one spelling, it returns the rows with [Timestamp] labels. *)
Theorem C9_local_reader_only_makes_the_directory self symbol market w :
  (files (world_of (get_local_data self symbol market w)) = files w ∧
   dirs (world_of (get_local_data self symbol market w))
     = {[market_dir self market]} ∪ dirs w) ∧
  (files w !! symbol_path self symbol market = None →
     get_local_data self symbol market w
       = Done None (with_line (NoLocalData symbol market)
                      (with_dir (market_dir self market) w))) ∧
  (∀ rows l ds,
     files w !! symbol_path self symbol market = Some rows →
     rows.*1 = DateCell l <$> ds →
     get_local_data self symbol market w
       = Done (Some (zip (Stamp <$> ds) (rows.*2)))
           (with_dir (market_dir self market) w)).
Proof.
  split; [apply get_local_data_frame|]. split.
  - intros Hf. by rewrite get_local_data_run, Hf.
  - apply get_local_data_dates.
Qed.

(** Reading back the file of the first run gives days 1 to 5 as
    [Timestamp]s; asking for a symbol never downloaded gives None. *)
Lemma C9_witness :
  get_local_data dw "AAPL" "US" after_first_run
    = Done (Some (stamped (fetched D1_D5))) after_first_run ∧
  get_local_data dw "MSFT" "US" after_first_run
    = Done None (with_line (NoLocalData "MSFT" "US") after_first_run).
Proof.
  destruct (C9_local_reader_only_makes_the_directory dw "AAPL" "US" after_first_run)
    as (_ & _ & Hthere).
  destruct (C9_local_reader_only_makes_the_directory dw "MSFT" "US" after_first_run)
    as (_ & Habsent & _).
  split.
  - rewrite (Hthere (date_only_rows (fetched D1_D5)) DateOnly [1; 2; 3; 4; 5]);
      [|vm_compute; reflexivity..].
    vm_compute. reflexivity.
  - rewrite Habsent; [|vm_compute; reflexivity].
    vm_compute. reflexivity.
Defined.

(** C9, as stated, fails: reading a symbol of a market never used before
    makes the directory of that market. *)
Lemma C9_counterexample :
  dirs (world_of (get_local_data dw "AAPL" "US" fresh)) ≠ dirs fresh.
Proof.
  intros Hsame.
  apply (f_equal (λ ds : gset string, bool_decide ("stock_data/US" ∈ ds))) in Hsame.
  vm_compute in Hsame. discriminate.
Qed.

(** ** Order of the rows that are written *)

Lemma ascending_cons d ds :
  ascending (d :: ds) = true ↔ Forall (Z.le d) ds ∧ ascending ds = true.
Proof.
  revert d. induction ds as [|d' ds IH]; intros d.
  - simpl. split; [by split|done].
  - change (ascending (d :: d' :: ds)) with ((d <=? d') && ascending (d' :: ds)).
    rewrite andb_true_iff, Z.leb_le, Forall_cons. split.
    + intros [Hle Hasc]. split; [|done]. split; [done|].
      apply IH in Hasc as [Hall _]. eapply Forall_impl; [exact Hall|].
      intros ??. lia.
    + intros [[Hle _] Hasc]. done.
Qed.

Lemma ascending_app ds1 ds2 :
  ascending ds1 = true → ascending ds2 = true →
  (∀ d d', d ∈ ds1 → d' ∈ ds2 → d ≤ d') →
  ascending (ds1 ++ ds2) = true.
Proof.
  intros H1 H2 Hle. induction ds1 as [|d ds1 IH]; [done|].
  simpl. apply ascending_cons in H1 as [Hall H1]. apply ascending_cons. split.
  - apply Forall_app. split; [done|]. apply Forall_forall. intros d' Hd'.
    apply Hle; [left|done].
  - apply IH; [done|]. intros ?? ??. apply Hle; [by right|done].
Qed.

Lemma ascending_sublist ds1 ds2 :
  ds1 `sublist_of` ds2 → ascending ds2 = true → ascending ds1 = true.
Proof.
  induction 1 as [|d ds1 ds2 Hsub IH|d ds1 ds2 Hsub IH]; [done|..].
  - rewrite !ascending_cons. intros [Hall Hasc]. split; [|by apply IH].
    apply Forall_forall. intros d' Hd'. rewrite Forall_forall in Hall.
    apply Hall. by eapply elem_of_sublist.
  - rewrite ascending_cons. intros [_ Hasc]. by apply IH.
Qed.

Lemma Forall2_sublist {A B} (P : A → B → Prop) l1 l2 k2 :
  l1 `sublist_of` l2 → Forall2 P l2 k2 →
  ∃ k1, k1 `sublist_of` k2 ∧ Forall2 P l1 k1.
Proof.
  intros Hsub. revert k2.
  induction Hsub as [|x l1 l2 Hsub IH|x l1 l2 Hsub IH]; intros k2 HP.
  - exists []. split; [apply sublist_nil_l|constructor].
  - apply Forall2_cons_inv_l in HP as (y & k2' & Hxy & HP & ->).
    destruct (IH _ HP) as (k1 & ? & ?). exists (y :: k1).
    split; by constructor.
  - apply Forall2_cons_inv_l in HP as (y & k2' & Hxy & HP & ->).
    destruct (IH _ HP) as (k1 & ? & ?). exists k1.
    split; [by constructor|done].
Qed.

Lemma sublist_index (df1 df2 : DataFrame) :
  df1 `sublist_of` df2 → index df1 `sublist_of` index df2.
Proof. unfold index. induction 1; simpl; by constructor. Qed.

(** The days of what [to_csv] writes are the days of the labels. *)
Lemma cell_day_format_label dt x : cell_day (format_label dt x) = label_day x.
Proof. by destruct x. Qed.

Lemma csv_days_csv_rows (df : DataFrame) :
  csv_days (csv_rows df) = mapM label_day (index df).
Proof.
  unfold csv_days, csv_rows, index. generalize (is_DatetimeIndex (df.*1)). intros dt.
  induction df as [|[x b] df IH]; [done|].
  rewrite !fmap_cons. simpl. rewrite cell_day_format_label.
  destruct (label_day x); [|done]. simpl in IH. simpl. by rewrite IH.
Qed.

Lemma days_of_concat (rows : csv) ds (df : yf_frame) :
  csv_days rows = Some ds →
  Forall2 (λ x d, label_day x = Some d)
    (index ((prod_map Text id <$> rows) ++ rename df)) (ds ++ df.*1).
Proof.
  intros Hrows. unfold index. rewrite fmap_app. apply Forall2_app.
  - apply mapM_Some in Hrows. rewrite <-list_fmap_compose.
    rewrite (list_fmap_ext _ (Text ∘ fst) rows) by (by intros _ [??] _).
    rewrite list_fmap_compose. rewrite Forall2_fmap_l.
    eapply Forall2_impl; [exact Hrows|]. done.
  - unfold rename. rewrite <-list_fmap_compose. rewrite Forall2_fmap.
    apply Forall_Forall2_diag. apply Forall_forall. by intros [??] _.
Qed.

Lemma written_rows_sorted (existing_df : DataFrame) dates :
  Forall2 (λ x d, label_day x = Some d) (index existing_df) dates →
  ascending dates = true →
  sorted_by_date (csv_rows (drop_duplicates_last existing_df)) = true.
Proof.
  intros Hdays Hasc. unfold sorted_by_date. rewrite csv_days_csv_rows.
  assert (index (drop_duplicates_last existing_df) `sublist_of` index existing_df) as Hsub.
  { apply sublist_index, drop_duplicates_last_sublist. }
  destruct (Forall2_sublist _ _ _ _ Hsub Hdays) as (dates' & Hsub' & Hdays').
  apply mapM_Some in Hdays'. rewrite Hdays'. by eapply ascending_sublist.
Qed.

(** C2, as the code has it. The updater never sorts: it writes the stored
    rows, then the fetched rows, less the duplicated labels. So the file it
    writes is in ascending order of date whenever the stored file was, the
    fetched rows are, and no fetched date is earlier than a stored date. *)
Theorem C2_sorted_when_no_fetched_date_is_earlier
    yf today self symbol market w t start end_ df :
  calls (world_of (update_historical_data yf today self symbol market w))
    = calls w ++ [Download t start end_] →
  download yf t start end_ = Gives df →
  df ≠ [] →
  ascending (df.*1) = true →
  (∀ rows, files w !! symbol_path self symbol market = Some rows →
     ∃ ds, csv_days rows = Some ds ∧ ascending ds = true ∧
           ∀ d d', d ∈ ds → d' ∈ df.*1 → d ≤ d') →
  ∃ w' rows',
    update_historical_data yf today self symbol market w = Done tt w' ∧
    files w' !! symbol_path self symbol market = Some rows' ∧
    sorted_by_date rows' = true.
Proof.
  rewrite update_historical_data_run. cbv zeta.
  intros Hcalls Hgives Hne Hasc Hstored.
  destruct (files w !! symbol_path self symbol market) as [rows|].
  - destruct (Hstored rows eq_refl) as (ds & Hds & Hasc_ds & Hle).
    destruct (last rows) as [[[l d|s] b]|]; simpl in Hcalls;
      [|by apply app_singleton_neq in Hcalls..].
    rewrite merge_and_save_calls in Hcalls. simpl in Hcalls.
    apply app_inv_head in Hcalls. injection Hcalls as <- <- <-.
    rewrite Hgives. destruct df as [|r df]; [done|].
    do 2 eexists. split; [done|]. simpl. rewrite lookup_insert_eq.
    split; [done|].
    eapply written_rows_sorted; [by apply days_of_concat|].
    by apply ascending_app.
  - rewrite merge_and_save_calls in Hcalls. simpl in Hcalls.
    apply app_inv_head in Hcalls. injection Hcalls as <- <- <-.
    rewrite Hgives. destruct df as [|r df]; [done|].
    do 2 eexists. split; [done|]. simpl. rewrite lookup_insert_eq.
    split; [done|].
    eapply written_rows_sorted; [|exact Hasc].
    exact (days_of_concat [] [] (r :: df) eq_refl).
Qed.

(** Days 1 to 5 are stored and days 6 and 7 are fetched: the file written
    is in order. *)
Lemma C2_witness :
  ∃ w' rows',
    update_historical_data (serving D6_D7) 8 dw "AAPL" "US" after_first_run = Done tt w' ∧
    files w' !! "stock_data/US/AAPL.csv" = Some rows' ∧
    sorted_by_date rows' = true.
Proof.
  apply (C2_sorted_when_no_fetched_date_is_earlier
           (serving D6_D7) 8 dw "AAPL" "US" after_first_run "AAPL" (Some 6) 8 D6_D7).
  - vm_compute. reflexivity.
  - reflexivity.
  - discriminate.
  - reflexivity.
  - intros rows Hrows. exists [1; 2; 3; 4; 5].
    vm_compute in Hrows. injection Hrows as <-.
    split; [reflexivity|]. split; [reflexivity|].
    intros d d' Hd Hd'.
    assert (d ≤ 5) by (set_unfold in Hd; lia).
    assert (6 ≤ d') by (vm_compute in Hd'; set_unfold in Hd'; lia).
    lia.
Defined.

(** C2, as stated, fails: days 1 to 5 are stored, in order; the provider
    returns day 3 and day 6, in order; the file written ends with the rows
    of days 5, 3, 6. *)
Lemma C2_counterexample :
  ∃ rows',
    files (world_of (update_historical_data (serving D3_D6) 8 dw "AAPL" "US" after_first_run))
      !! "stock_data/US/AAPL.csv" = Some rows' ∧
    csv_days rows' = Some [1; 2; 3; 4; 5; 3; 6] ∧
    sorted_by_date rows' = false.
Proof. eexists. split; [vm_compute; reflexivity|]. vm_compute. done. Qed.

(** ** Overlap of the stored and the fetched dates *)

(** C1, on the code. Days 1 to 5 are stored by a first run; the second run
    fetches days 4 to 7, days 4 and 5 with revised prices. The labels read
    from the file at line 76 are texts (no [parse_dates]; line 77 converts
    the last one by hand, and [get_local_data], line 122, does parse them),
    the fetched labels are [Timestamp]s, so line 97 finds no duplicate:
    the file written has nine rows, the stored bars of days 4 and 5
    followed later by the fetched bars of days 4 and 5. *)
Theorem C1_overlap_keeps_stored_and_fetched_bars :
  files (world_of (update_historical_data (serving D4_D7) 8 dw "AAPL" "US" after_first_run))
    !! "stock_data/US/AAPL.csv"
  = Some [(DateCell DateOnly 1, quote 101); (DateCell DateOnly 2, quote 102);
          (DateCell DateOnly 3, quote 103); (DateCell DateOnly 4, quote 104);
          (DateCell DateOnly 5, quote 105); (DateCell DateTime 4, quote 204);
          (DateCell DateTime 5, quote 205); (DateCell DateTime 6, quote 106);
          (DateCell DateTime 7, quote 107)].
Proof. vm_compute. reflexivity. Qed.

(** C3, on the code. In the same run the file written holds two bars of
    day 4 and two bars of day 5. *)
Theorem C3_two_bars_for_an_overlapping_date :
  ∃ rows,
    files (world_of (update_historical_data (serving D4_D7) 8 dw "AAPL" "US" after_first_run))
      !! "stock_data/US/AAPL.csv" = Some rows ∧
    bars_on 4 rows = 2%nat ∧ bars_on 5 rows = 2%nat.
Proof. eexists. split; [vm_compute; reflexivity|]. vm_compute. done. Qed.

(** * Further properties of the warehouse *)

(** ** What [update_historical_data] touches, prints and raises *)

Lemma update_historical_data_dirs yf today self symbol market w :
  dirs (world_of (update_historical_data yf today self symbol market w))
    = {[market_dir self market]} ∪ dirs w.
Proof.
  rewrite update_historical_data_run. cbv zeta.
  destruct (files w !! symbol_path self symbol market) as [rows|].
  - destruct (last rows) as [[[l d|s] b]|]; [|done..].
    by destruct (download yf _ _ _) as [e|[|r df]].
  - by destruct (download yf _ _ _) as [e|[|r df]].
Qed.

Lemma update_historical_data_other_files yf today self symbol market w p :
  p ≠ symbol_path self symbol market →
  files (world_of (update_historical_data yf today self symbol market w)) !! p
    = files w !! p.
Proof.
  intros Hp. rewrite update_historical_data_run. cbv zeta.
  destruct (files w !! symbol_path self symbol market) as [rows|].
  - destruct (last rows) as [[[l d|s] b]|]; [|done..].
    destruct (download yf _ _ _) as [e|[|r df]]; simpl; [done..|].
    by rewrite lookup_insert_ne.
  - destruct (download yf _ _ _) as [e|[|r df]]; simpl; [done..|].
    by rewrite lookup_insert_ne.
Qed.

(** X1. The frame of the updater.  However the call ends, the one change
    to the directories is that the directory of the market exists, and no
    file other than the one of the pair is created, changed or removed. *)
Theorem update_historical_data_touches_one_file yf today self symbol market w :
  dirs (world_of (update_historical_data yf today self symbol market w))
    = {[market_dir self market]} ∪ dirs w ∧
  ∀ p, p ≠ symbol_path self symbol market →
       files (world_of (update_historical_data yf today self symbol market w)) !! p
         = files w !! p.
Proof.
  split; [apply update_historical_data_dirs|].
  intros p Hp. by apply update_historical_data_other_files.
Qed.

(** Updating 0700 in HK leaves the file of AAPL as it was. *)
Lemma update_historical_data_touches_one_file_witness :
  files (world_of (update_historical_data (serving D4_D7) 8 dw "0700" "HK" after_first_run))
    !! "stock_data/US/AAPL.csv"
  = files after_first_run !! "stock_data/US/AAPL.csv".
Proof.
  destruct (update_historical_data_touches_one_file
              (serving D4_D7) 8 dw "0700" "HK" after_first_run) as [_ Hothers].
  apply Hothers. discriminate.
Defined.

(** X2. A stored file without a usable last row.  When the stored file
    holds no row, [index[-1]] raises [IndexError]; when its last row is not
    labelled by a date, [pd.to_datetime] raises [ValueError]: either way the
    exception leaves the updater before any fetch, with no provider call,
    no line printed and no file changed.  The reader, for its part, returns
    an empty frame for the file without rows. *)
Theorem update_historical_data_stops_on_unusable_file yf today self symbol market w :
  (files w !! symbol_path self symbol market = Some [] →
     update_historical_data yf today self symbol market w
       = Raised IndexError (with_dir (market_dir self market) w) ∧
     get_local_data self symbol market w
       = Done (Some []) (with_dir (market_dir self market) w)) ∧
  (∀ rows s b,
     files w !! symbol_path self symbol market = Some rows →
     last rows = Some (OtherCell s, b) →
     update_historical_data yf today self symbol market w
       = Raised (ValueError (OtherCell s)) (with_dir (market_dir self market) w)).
Proof.
  split.
  - intros Hf. split.
    + rewrite update_historical_data_run. cbv zeta. by rewrite Hf.
    + exact (get_local_data_dates self symbol market w [] DateOnly [] Hf eq_refl).
  - intros rows s b Hf Hl. rewrite update_historical_data_run. cbv zeta.
    by rewrite Hf, Hl.
Qed.

Lemma update_historical_data_stops_witness :
  update_historical_data (serving D1_D5) 6 dw "AAPL" "US" header_only
    = Raised IndexError header_only ∧
  get_local_data dw "AAPL" "US" header_only = Done (Some []) header_only ∧
  update_historical_data (serving D1_D5) 6 dw "AAPL" "US" with_footer
    = Raised (ValueError (OtherCell "Total")) with_footer.
Proof.
  destruct (update_historical_data_stops_on_unusable_file
              (serving D1_D5) 6 dw "AAPL" "US" header_only) as [Hempty _].
  destruct (update_historical_data_stops_on_unusable_file
              (serving D1_D5) 6 dw "AAPL" "US" with_footer) as [_ Hfooter].
  destruct Hempty as [Hupdate Hread]; [vm_compute; reflexivity|].
  split; [|split].
  - rewrite Hupdate. vm_compute. reflexivity.
  - rewrite Hread. vm_compute. reflexivity.
  - rewrite (Hfooter [(DateCell DateOnly 1, quote 101); (OtherCell "Total", quote 0)]
               "Total" (quote 0)); [|vm_compute; reflexivity..].
    vm_compute. reflexivity.
Defined.

(** X3. What the updater prints.  After the fetch it prints, when the
    provider raised, "Error downloading" with the ticker asked for and then
    "No new data" with the bare symbol; when the frame has no row, "No new
    data" alone; otherwise "Updated ... with n new records" where n is the
    number of fetched rows, whatever line 97 dropped afterwards. *)
Theorem update_historical_data_prints yf today self symbol market w t start end_ :
  calls (world_of (update_historical_data yf today self symbol market w))
    = calls w ++ [Download t start end_] →
  stdout (world_of (update_historical_data yf today self symbol market w))
    = stdout w ++
      match download yf t start end_ with
      | Fails e => [ErrorDownloading t e; NoNewData symbol]
      | Gives [] => [NoNewData symbol]
      | Gives df => [Updated symbol (length df)]
      end.
Proof.
  rewrite update_historical_data_run. cbv zeta. intros Hcalls.
  destruct (files w !! symbol_path self symbol market) as [rows|].
  - destruct (last rows) as [[[l d|s] b]|]; simpl in Hcalls;
      [|by apply app_singleton_neq in Hcalls..].
    rewrite merge_and_save_calls in Hcalls. simpl in Hcalls.
    apply app_inv_head in Hcalls. injection Hcalls as <- <- <-.
    destruct (download yf _ _ _) as [e|[|r df]]; simpl; [|done..].
    by rewrite <-app_assoc.
  - rewrite merge_and_save_calls in Hcalls. simpl in Hcalls.
    apply app_inv_head in Hcalls. injection Hcalls as <- <- <-.
    destruct (download yf _ _ _) as [e|[|r df]]; simpl; [|done..].
    by rewrite <-app_assoc.
Qed.

Lemma update_historical_data_prints_witness :
  stdout (world_of (update_historical_data offline 6 dw "0700" "HK" fresh))
    = [ErrorDownloading "0700.HK" "connection refused"; NoNewData "0700"] ∧
  stdout (world_of (update_historical_data (serving [(1, yf_quote 101); (1, yf_quote 111)])
                      6 dw "0700" "HK" fresh))
    = [Updated "0700" 2].
Proof.
  split.
  - apply (update_historical_data_prints offline 6 dw "0700" "HK" fresh "0700.HK" None 6).
    vm_compute. reflexivity.
  - apply (update_historical_data_prints
             (serving [(1, yf_quote 101); (1, yf_quote 111)])
             6 dw "0700" "HK" fresh "0700.HK" None 6).
    vm_compute. reflexivity.
Defined.

(** ** What a first run writes *)

Lemma merge_and_save_gives path symbol existing_df t (df : yf_frame) w :
  df ≠ [] →
  merge_and_save path symbol existing_df t (Gives df) w
    = Done tt (with_line (Updated symbol (length df))
        (with_file path
           (csv_rows (drop_duplicates_last (default [] existing_df ++ rename df))) w)).
Proof. by destruct df. Qed.

(** Deduplication by date: the dates that are left, and the bar that is kept. *)
Lemma dedup_by_date_keep_last_days (rows : list (Z * bar)) d :
  d ∈ (dedup_by_date_keep_last rows).*1 ↔ d ∈ rows.*1.
Proof.
  induction rows as [|[d' b] rows IH]; [done|]. simpl.
  case_bool_decide as Hd'.
  - rewrite IH, elem_of_cons. split; [by right|]. by intros [->|?].
  - by rewrite fmap_cons, !elem_of_cons, IH.
Qed.

Lemma dedup_by_date_keep_last_NoDup (rows : list (Z * bar)) :
  NoDup (dedup_by_date_keep_last rows).*1.
Proof.
  induction rows as [|[d b] rows IH]; [constructor|]. simpl.
  case_bool_decide as Hd; [done|]. rewrite fmap_cons. constructor; [|done].
  by rewrite dedup_by_date_keep_last_days.
Qed.

Lemma dedup_by_date_keep_last_last (rows : list (Z * bar)) d b :
  (d, b) ∈ dedup_by_date_keep_last rows →
  ∃ pre post, rows = pre ++ (d, b) :: post ∧ d ∉ post.*1.
Proof.
  induction rows as [|[d' b'] rows IH]; simpl; [by intros ?%elem_of_nil|].
  case_bool_decide as Hd'.
  - intros (pre & post & -> & ?)%IH. by exists ((d', b') :: pre), post.
  - intros [[= -> ->]|Hin]%elem_of_cons.
    + by exists [], rows.
    + apply IH in Hin as (pre & post & -> & ?). by exists ((d', b') :: pre), post.
Qed.

(** X4. What a first run writes.  With no file there and a fetch that
    brings rows, the file written has one row for every fetched date and
    no two rows of one date, and the bar of a date is the one of its last
    occurrence among the fetched rows. *)
Theorem first_run_keeps_the_last_bar_of_each_date yf today self symbol market w df :
  files w !! symbol_path self symbol market = None →
  download yf (ticker symbol market) None today = Gives df →
  df ≠ [] →
  ∃ rows,
    files (world_of (update_historical_data yf today self symbol market w))
      !! symbol_path self symbol market = Some rows ∧
    NoDup (rows.*1) ∧
    (∀ d, DateCell DateOnly d ∈ rows.*1 ↔ d ∈ df.*1) ∧
    (∀ c b, (c, b) ∈ rows →
       ∃ d yb pre post,
         c = DateCell DateOnly d ∧ b = canonical yb ∧
         df = pre ++ (d, yb) :: post ∧ d ∉ post.*1).
Proof.
  intros Hf Hgives Hdf. rewrite update_historical_data_run. cbv zeta.
  rewrite Hf, Hgives, merge_and_save_gives by done.
  change (default [] None ++ rename df) with (rename df).
  cbn [world_of files with_line with_file].
  rewrite lookup_insert_eq, rename_stamped, drop_duplicates_last_stamped,
    csv_rows_stamped.
  set (new := df). eexists. split; [done|].
  assert ((date_only_rows (dedup_by_date_keep_last (fetched new))).*1
          = DateCell DateOnly <$> (dedup_by_date_keep_last (fetched new)).*1) as Hlabels.
  { unfold date_only_rows. rewrite <-!list_fmap_compose.
    apply list_fmap_ext. by intros _ [??] _. }
  assert ((fetched new).*1 = new.*1) as Hdays.
  { unfold fetched. rewrite <-list_fmap_compose. apply list_fmap_ext. by intros _ [??] _. }
  split; [|split].
  - rewrite Hlabels. apply NoDup_fmap_2_strong; [|apply dedup_by_date_keep_last_NoDup].
    by intros ?? _ _ [= ->].
  - intros d. rewrite Hlabels, <-Hdays, <-dedup_by_date_keep_last_days.
    rewrite list_elem_of_fmap. split; [by intros (d' & [= ->] & ?)|eauto].
  - intros c b. unfold date_only_rows. rewrite list_elem_of_fmap.
    intros ([d b'] & [= -> ->] & Hin).
    apply dedup_by_date_keep_last_last in Hin as (pre & post & Hsplit & Hlast).
    unfold fetched in Hsplit. apply fmap_app_inv in Hsplit as (pre' & rest & -> & Hrest & ->).
    symmetry in Hrest. apply fmap_cons_inv in Hrest as ([d' yb] & post' & [= -> ->] & -> & ->).
    exists d', yb, pre', post'. split; [done|]. split; [done|]. split; [done|].
    revert Hlast. rewrite <-list_fmap_compose.
    by rewrite (list_fmap_ext (fst ∘ prod_map id canonical) fst post') by (by intros _ [??] _).
Qed.

Lemma first_run_witness :
  ∃ rows,
    files (world_of (update_historical_data
                       (serving [(1, yf_quote 101); (2, yf_quote 102); (1, yf_quote 111)])
                       6 dw "AAPL" "US" fresh))
      !! symbol_path dw "AAPL" "US" = Some rows ∧
    rows = [(DateCell DateOnly 2, quote 102); (DateCell DateOnly 1, quote 111)].
Proof.
  destruct (first_run_keeps_the_last_bar_of_each_date
              (serving [(1, yf_quote 101); (2, yf_quote 102); (1, yf_quote 111)])
              6 dw "AAPL" "US" fresh
              [(1, yf_quote 101); (2, yf_quote 102); (1, yf_quote 111)])
    as (rows & Hrows & _); [reflexivity|reflexivity|discriminate|].
  exists rows. split; [exact Hrows|].
  vm_compute in Hrows. by injection Hrows as <-.
Defined.

(** ** Writing, then reading back *)





(** ** The batch runner, further *)

(** X6. An exception stops the batch.  [batch_update] has no [try]: when
    the updater raises for one pair (a stored file without a usable last
    row), the exception leaves [batch_update] at once and the pairs after
    it are not processed. *)
Theorem batch_update_stops_at_an_exception
    yf today self symbol_list markets pre symbol market post w w1 w2 e :
  zip symbol_list markets = pre ++ (symbol, market) :: post →
  batch_update yf today self (pre.*1) (pre.*2) w = Done tt w1 →
  update_historical_data yf today self symbol market w1 = Raised e w2 →
  batch_update yf today self symbol_list markets w = Raised e w2.
Proof.
  intros Hzip Hpre Hraise.
  rewrite batch_update_zip, Hzip, batch_update_app, Hpre.
  rewrite fmap_cons, (fmap_cons snd). simpl.
  by rewrite batch_update_cons, Hraise.
Qed.

(** AAPL has a file without rows: MSFT, after it, is never asked for. *)
Lemma batch_update_stops_witness :
  batch_update (serving D1_D5) 6 dw ["AAPL"; "MSFT"] ["US"; "US"] header_only
    = Raised IndexError header_only.
Proof.
  apply (batch_update_stops_at_an_exception
           (serving D1_D5) 6 dw ["AAPL"; "MSFT"] ["US"; "US"]
           [] "AAPL" "US" [("MSFT", "US")] header_only header_only header_only).
  - reflexivity.
  - reflexivity.
  - vm_compute. reflexivity.
Defined.
